(** * MinerU document extraction action

    A shallow embedding of the [run] function of
    [packages/pieces/custom/mineru/src/lib/actions/document-data-extraction-with-mineru.ts]
    and the properties of its request and response shaping.

    The action reads its property values, derives a MIME type for the
    uploaded file, fills a [FormData], awaits one [httpClient.sendRequest]
    and turns the response into a returned value or a thrown [Error]. *)

From Stdlib Require Import ZArith List Strings.String Strings.Ascii Strings.Byte Bool Lia.
From Stdlib Require Import DecimalString.
From Stdlib Require DecimalZ.
Import ListNotations.

Local Open Scope string_scope.
Local Open Scope Z_scope.

Set Implicit Arguments.
#[local] Set Warnings "-register-all".

(** ** JavaScript values *)

Module Js.

(** The values a response body or a returned value can be.  A [Buffer] is
    a [Uint8Array] too (Node's [Buffer] extends it).  A number is a safe
    integer (see [isSafeInteger] below); an object lists its own properties
    in the order JavaScript enumerates them, each key once. *)
Inductive Value : Type :=
| VUndefined
| VNull
| VBool (b : bool)
| VNumber (n : Z)
| VString (s : string)
| VArray (elements : list Value)
| VObject (properties : list (string * Value))
| VBuffer (bytes : list byte)
| VUint8Array (bytes : list byte).

(** [v instanceof Buffer] *)
Definition instanceof_Buffer (v : Value) : bool :=
  match v with
  | VBuffer _ => true
  | _ => false
  end.

(** [v instanceof Uint8Array] *)
Definition instanceof_Uint8Array (v : Value) : bool :=
  match v with
  | VBuffer _ | VUint8Array _ => true
  | _ => false
  end.

(** [Buffer.from(v)] for a [v] that is a [Buffer] or a [Uint8Array]: a
    copy of its bytes.  The action calls it on such values only. *)
Definition Buffer_from (v : Value) : list byte :=
  match v with
  | VBuffer bytes | VUint8Array bytes => bytes
  | _ => []
  end.

(** Truthiness, the test of [if (x)], [x ? a : b] and [x || y]. *)
Class Truthy (A : Type) : Type := truthy : A -> bool.

#[export] Instance Truthy_bool : Truthy bool := fun b => b.

#[export] Instance Truthy_string : Truthy string :=
  fun s => match s with EmptyString => false | String _ _ => true end.

#[export] Instance Truthy_number : Truthy Z := fun n => negb (n =? 0).

(** An optional property is [undefined] when it was not given. *)
#[export] Instance Truthy_option (A : Type) `{Truthy A} : Truthy (option A) :=
  fun o => match o with Some a => truthy a | None => false end.

(** [Number.isSafeInteger(n)] on an integer: at most [2^53 - 1] in absolute
    value. *)
Definition isSafeInteger (n : Z) : bool := Z.abs n <=? 9007199254740991.

(** [String(n)] on a safe integer: its decimal digits, with a minus sign
    for a negative one.  Beyond the safe integers JavaScript prints
    otherwise (the shortest digits that read back as the same double, and
    an exponent from [1e21] on), so this text is [String(n)] only where
    [isSafeInteger n] holds; a statement on the text of a page number takes
    that as a hypothesis. *)
Definition String_ (n : Z) : string := NilZero.string_of_int (Z.to_int n).

(** A thrown [Error] object. *)
Record Error : Type := new_Error { message : string }.

End Js.

Import Js.

(** ** [Buffer.prototype.toString('base64')] *)

Module Base64.

Definition alphabet : string :=
  "ABCDEFGHIJKLMNOPQRSTUVWXYZabcdefghijklmnopqrstuvwxyz0123456789+/".

Definition pad : ascii := "="%char.

(** The character of a six-bit group. *)
Definition digit (n : N) : ascii :=
  match String.get (N.to_nat n) alphabet with
  | Some c => c
  | None => pad
  end.

(** Three bytes give four characters; a last group of one or two bytes is
    padded with [=]. *)
Fixpoint encode (bytes : list byte) : string :=
  match bytes with
  | [] => ""
  | [a] =>
      let n := (Byte.to_N a * 65536)%N in
      String (digit (N.shiftr n 18))
        (String (digit (N.land (N.shiftr n 12) 63))
           (String pad (String pad "")))
  | [a; b] =>
      let n := (Byte.to_N a * 65536 + Byte.to_N b * 256)%N in
      String (digit (N.shiftr n 18))
        (String (digit (N.land (N.shiftr n 12) 63))
           (String (digit (N.land (N.shiftr n 6) 63))
              (String pad "")))
  | a :: b :: c :: rest =>
      let n := (Byte.to_N a * 65536 + Byte.to_N b * 256 + Byte.to_N c)%N in
      String (digit (N.shiftr n 18))
        (String (digit (N.land (N.shiftr n 12) 63))
           (String (digit (N.land (N.shiftr n 6) 63))
              (String (digit (N.land n 63)) (encode rest))))
  end.

(** The other direction, [Buffer.from(text, 'base64')] on a padded text:
    the six-bit group of a character, and the bytes of a text. *)
Fixpoint index_of (c : ascii) (s : string) : option N :=
  match s with
  | EmptyString => None
  | String c' rest =>
      if Ascii.eqb c c' then Some 0%N else option_map N.succ (index_of c rest)
  end.

Definition value (c : ascii) : option N := index_of c alphabet.

Definition bytes_of (count : nat) (n : N) : option (list byte) :=
  match Byte.of_N (N.shiftr n 16),
        Byte.of_N (N.land (N.shiftr n 8) 255),
        Byte.of_N (N.land n 255) with
  | Some a, Some b, Some c => Some (firstn count [a; b; c])
  | _, _, _ => None
  end.

Fixpoint decode (text : string) : option (list byte) :=
  match text with
  | EmptyString => Some []
  | String c1 (String c2 (String c3 (String c4 rest))) =>
      match value c1, value c2 with
      | Some d1, Some d2 =>
          let high := (d1 * 262144 + d2 * 4096)%N in
          match value c3, value c4 with
          | Some d3, Some d4 =>
              match bytes_of 3 (high + d3 * 64 + d4), decode rest with
              | Some group, Some more => Some (group ++ more)%list
              | _, _ => None
              end
          | Some d3, None =>
              if Ascii.eqb c4 pad then
                match rest with
                | EmptyString => bytes_of 2 (high + d3 * 64)
                | _ => None
                end
              else None
          | None, _ =>
              if Ascii.eqb c3 pad && Ascii.eqb c4 pad then
                match rest with
                | EmptyString => bytes_of 1 high
                | _ => None
                end
              else None
          end
      | _, _ => None
      end
  | _ => None
  end.

End Base64.

(** ** [JSON.stringify]

    The rendering ECMA-262 gives for the values above (numbers that are
    safe integers, objects that list their properties in enumeration
    order, each key once), a string being read as the UTF-8 bytes of its
    text.  The properties of the action below hold for every rendering;
    this one serves the concrete runs. *)

Module JSON.

Definition quotation_mark : ascii := "034"%char.
Definition reverse_solidus : ascii := "092"%char.

Definition hex_digit (n : nat) : ascii :=
  match String.get n "0123456789abcdef" with
  | Some c => c
  | None => "0"%char
  end.

(** One character inside a quoted string. *)
Definition escape (c : ascii) : string :=
  let n := nat_of_ascii c in
  if Nat.eqb n 8 then String reverse_solidus "b"
  else if Nat.eqb n 9 then String reverse_solidus "t"
  else if Nat.eqb n 10 then String reverse_solidus "n"
  else if Nat.eqb n 12 then String reverse_solidus "f"
  else if Nat.eqb n 13 then String reverse_solidus "r"
  else if Nat.eqb n 34 then String reverse_solidus (String quotation_mark "")
  else if Nat.eqb n 92 then String reverse_solidus (String reverse_solidus "")
  else if Nat.ltb n 32 then
    String reverse_solidus
      (String "u" (String "0" (String "0"
         (String (hex_digit (Nat.div n 16))
            (String (hex_digit (Nat.modulo n 16)) "")))))
  else String c "".

Fixpoint escape_all (s : string) : string :=
  match s with
  | EmptyString => ""
  | String c rest => escape c ++ escape_all rest
  end.

Definition quote (s : string) : string :=
  String quotation_mark (escape_all s ++ String quotation_mark "").

Definition byte_number (b : byte) : string :=
  String_ (Z.of_N (Byte.to_N b)).

(** The members of a [Uint8Array]: its indices as keys. *)
Fixpoint indexed (i : Z) (bytes : list byte) : list string :=
  match bytes with
  | [] => []
  | b :: rest =>
      (quote (String_ i) ++ ":" ++ byte_number b) :: indexed (i + 1) rest
  end.

(** [None] stands for [undefined], the result on a value that has no JSON
    text.  In an array such an element reads [null]; in an object the
    property is left out. *)
Fixpoint serialize (v : Value) : option string :=
  match v with
  | VUndefined => None
  | VNull => Some "null"
  | VBool true => Some "true"
  | VBool false => Some "false"
  | VNumber n => Some (String_ n)
  | VString s => Some (quote s)
  | VArray elements =>
      Some ("[" ++ String.concat ","
              (map (fun e => match serialize e with
                             | Some s => s
                             | None => "null"
                             end) elements) ++ "]")
  | VObject properties =>
      Some ("{" ++ String.concat ","
              (flat_map (fun kv => match serialize (snd kv) with
                                   | Some s => [quote (fst kv) ++ ":" ++ s]
                                   | None => []
                                   end) properties) ++ "}")
  | VBuffer bytes =>
      Some ("{" ++ quote "type" ++ ":" ++ quote "Buffer" ++ ","
              ++ quote "data" ++ ":["
              ++ String.concat "," (map byte_number bytes) ++ "]}")
  | VUint8Array bytes =>
      Some ("{" ++ String.concat "," (indexed 0 bytes) ++ "}")
  end.

(** [`${JSON.stringify(v)}`] *)
Definition stringify (v : Value) : string :=
  match serialize v with
  | Some s => s
  | None => "undefined"
  end.

End JSON.

(** ** The multipart form *)

(** A [Blob] as its constructor receives it: the bytes and the [type]
    option. *)
Record Blob : Type := new_Blob { blob_data : list byte; blob_type : string }.

(** A form entry holds a string, or a blob with the file name given to
    [append]. *)
Inductive FormValue : Type :=
| FormString (s : string)
| FormFile (blob : Blob) (filename : string).

(** A [FormData] is the list of its entries in the order they were
    appended. *)
Definition FormData : Type := list (string * FormValue).

Module Form.

Definition new_FormData : FormData := [].

(** [form.append(name, value)] *)
Definition append (form : FormData) (name : string) (value : FormValue)
  : FormData :=
  (form ++ [(name, value)])%list.

(** [form.getAll(name)] *)
Fixpoint getAll (form : FormData) (name : string) : list FormValue :=
  match form with
  | [] => []
  | (n, v) :: rest =>
      if String.eqb n name then v :: getAll rest name else getAll rest name
  end.

(** [form.has(name)] *)
Definition has (form : FormData) (name : string) : bool :=
  match getAll form name with
  | [] => false
  | _ :: _ => true
  end.

End Form.

(** ** The property values of the action *)

(** The file property: [ApFile] of the pieces framework. *)
Record ApFile : Type := new_ApFile {
  filename : string;
  data : list byte;
  extension : option string
}.

(** [context.propsValue].  [apiServerUrl] and [file] are required; a
    property that was not given is [undefined], here [None]. *)
Record PropsValue : Type := new_PropsValue {
  apiServerUrl : string;
  file : ApFile;
  langList : option string;
  backend : option string;
  backendServerUrl : option string;
  parseMethod : option string;
  formulaEnable : option bool;
  tableEnable : option bool;
  returnMD : option bool;
  returnMiddleJson : option bool;
  returnModelOutput : option bool;
  returnContentList : option bool;
  returnImages : option bool;
  responseFormatZip : option bool;
  startPageId : option Z;
  endPageId : option Z
}.

(** ** The HTTP client *)

Inductive HttpMethod : Type := GET | POST | PUT | PATCH | DELETE | HEAD.

Module Request.
Record t : Type := make {
  url : string;
  method : HttpMethod;
  headers : list (string * string);
  body : FormData
}.
End Request.

Module Response.
Record t : Type := make {
  status : Z;
  body : Value
}.
End Response.

(** ** Actions: the effects of an [async] function body

    An action returns, throws, or awaits [httpClient.sendRequest] and goes
    on with the response. *)

Inductive Action (A : Type) : Type :=
| Return (a : A)
| Throw (e : Error)
| Await_sendRequest (request : Request.t) (k : Response.t -> Action A).

Arguments Return {A} a.
Arguments Throw {A} e.
Arguments Await_sendRequest {A} request k.

Fixpoint bind {A B : Type} (m : Action A) (f : A -> Action B) : Action B :=
  match m with
  | Return a => f a
  | Throw e => Throw e
  | Await_sendRequest request k =>
      Await_sendRequest request (fun response => bind (k response) f)
  end.

Definition sendRequest (request : Request.t) : Action Response.t :=
  Await_sendRequest request (fun response => Return response).

Declare Scope action_scope.
Delimit Scope action_scope with action.
Notation "x <- m ;; k" := (bind m (fun x => k))
  (at level 61, m at next level, right associativity) : action_scope.

(** How a promise settles. *)
Inductive Settled (A : Type) : Type :=
| Fulfilled (a : A)
| Rejected (e : Error).

Arguments Fulfilled {A} a.
Arguments Rejected {A} e.

(** The HTTP client and the network behind it: what the [n]-th call of an
    invocation settles to.  A transport failure rejects. *)
Definition HttpClient : Type := nat -> Request.t -> Settled Response.t.

(** What an invocation did: the requests it sent, in order, and how it
    settled. *)
Record Execution (A : Type) : Type := new_Execution {
  calls : list Request.t;
  outcome : Settled A
}.

(** Runs an action against a client; [n] calls were made before. *)
Fixpoint exec {A : Type} (client : HttpClient) (n : nat) (m : Action A)
  : Execution A :=
  match m with
  | Return a => new_Execution [] (Fulfilled a)
  | Throw e => new_Execution [] (Rejected e)
  | Await_sendRequest request k =>
      match client n request with
      | Rejected e => new_Execution [request] (Rejected e)
      | Fulfilled response =>
          let rest := exec client (S n) (k response) in
          new_Execution (request :: calls rest) (outcome rest)
      end
  end.

(** ** The action *)

Section MinerU.

(** [mime.lookup] of the mime-types package: the MIME type of an
    extension, or [false] ([None]) for one it does not know. *)
Variable mime_lookup : string -> option string.

(** [JSON.stringify], as the template literal renders its result. *)
Variable JSON_stringify : Value -> string.

Import Form.
Local Open Scope action_scope.

Definition octet_stream : string := "application/octet-stream".

(** The operator [a || b] on a looked-up MIME type. *)
Definition or_else (a : option string) (b : string) : string :=
  match a with
  | Some s => if truthy s then s else b
  | None => b
  end.

(** Line 116: the MIME type of the uploaded file. *)
Definition mimeType (file : ApFile) : string :=
  match extension file with
  | Some ext =>
      if truthy ext then or_else (mime_lookup ext) octet_stream
      else octet_stream
  | None => octet_stream
  end.

(** [if (x) form.append(name, render(x))] on an optional property. *)
Definition append_if {A : Type} `{Truthy A} (form : FormData)
    (x : option A) (name : string) (render : A -> string) : FormData :=
  match x with
  | Some a =>
      if truthy a then append form name (FormString (render a)) else form
  | None => form
  end.

(** [x ? 'true' : 'false'] *)
Definition true_or_false (x : option bool) : string :=
  if truthy x then "true" else "false".

(** Lines 116 to 136: the form sent to the server. *)
Definition buildForm (propsValue : PropsValue) : FormData :=
  let file := file propsValue in
  let blob := new_Blob (data file) (mimeType file) in
  let form := new_FormData in
  let form := append form "files" (FormFile blob (filename file)) in
  let form := append_if form (langList propsValue) "lang_list" id in
  let form := append_if form (backend propsValue) "backend" id in
  let form := append_if form (parseMethod propsValue) "parse_method" id in
  let form := append_if form (backendServerUrl propsValue) "server_url" id in
  let form := append_if form (startPageId propsValue) "start_page_id" String_ in
  let form := append_if form (endPageId propsValue) "end_page_id" String_ in
  let form := append form "formula_enable"
                (FormString (true_or_false (formulaEnable propsValue))) in
  let form := append form "table_enable"
                (FormString (true_or_false (tableEnable propsValue))) in
  let form := append form "return_md"
                (FormString (true_or_false (returnMD propsValue))) in
  let form := append form "return_middle_json"
                (FormString (true_or_false (returnMiddleJson propsValue))) in
  let form := append form "return_model_output"
                (FormString (true_or_false (returnModelOutput propsValue))) in
  let form := append form "return_content_list"
                (FormString (true_or_false (returnContentList propsValue))) in
  let form := append form "return_images"
                (FormString (true_or_false (returnImages propsValue))) in
  let form := append form "response_format_zip"
                (FormString (true_or_false (responseFormatZip propsValue))) in
  form.

(** Lines 138 to 145: the request. *)
Definition request (propsValue : PropsValue) : Request.t :=
  Request.make
    (apiServerUrl propsValue ++ "/file_parse")
    POST
    [("Content-Type", "multipart/form-data")]
    (buildForm propsValue).

(** Line 149: the message of the error for a status of 300 or more. *)
Definition status_message (response : Response.t) : string :=
  "MinerU API request failed with status "
    ++ String_ (Response.status response) ++ ": "
    ++ JSON_stringify (Response.body response).

(** Line 166. *)
Definition format_message : string :=
  "Expected ZIP file response but received non-binary data.".

(** Lines 147 to 171: what the action makes of the response. *)
Definition handleResponse (propsValue : PropsValue) (response : Response.t)
  : Action Value :=
  if Response.status response >=? 300 then
    Throw (new_Error (status_message response))
  else if truthy (responseFormatZip propsValue) then
    let zipData := Response.body response in
    if instanceof_Buffer zipData || instanceof_Uint8Array zipData then
      Return (VObject
        [ ("filename",
            VString (filename (file propsValue) ++ "_mineru_result.zip"));
          ("data", VString (Base64.encode (Buffer_from zipData)));
          ("extension", VString "zip") ])
    else
      Throw (new_Error format_message)
  else
    Return (Response.body response).

(** [run(context)]. *)
Definition run (propsValue : PropsValue) : Action Value :=
  response <- sendRequest (request propsValue) ;;
  handleResponse propsValue response.

End MinerU.

(** ** The declared defaults of the page properties (lines 103 and 109) *)

Definition startPageId_defaultValue : Z := 0.
Definition endPageId_defaultValue : Z := 99999.

(** ** The declared properties (lines 9 to 111) *)

Module Property.

(** An entry of a dropdown. *)
Record DropdownOption : Type := new_option { label : string; value : string }.

(** The property kinds the action uses, with what it gives each:
    [displayName], [description], [required], [defaultValue] and, for a
    dropdown, [options.options]. *)
Inductive t : Type :=
| ShortText (displayName : string) (description : option string)
    (required : bool) (defaultValue : option string)
| File (displayName : string) (description : option string)
    (required : bool)
| StaticDropdown (displayName : string) (description : option string)
    (required : bool) (defaultValue : option string)
    (options : list DropdownOption)
| Checkbox (displayName : string) (description : option string)
    (required : bool) (defaultValue : option bool)
| Number (displayName : string) (description : option string)
    (required : bool) (defaultValue : option Z).

Definition required_of (p : t) : bool :=
  match p with
  | ShortText _ _ r _ | File _ _ r | StaticDropdown _ _ r _ _
  | Checkbox _ _ r _ | Number _ _ r _ => r
  end.

Definition options_of (p : t) : list DropdownOption :=
  match p with
  | StaticDropdown _ _ _ _ options => options
  | _ => []
  end.

End Property.

(** A word between quotation marks, as the descriptions have them. *)
Definition quoted (s : string) : string :=
  String JSON.quotation_mark (s ++ String JSON.quotation_mark "").

(** An option whose label is its value. *)
Definition plain_option (v : string) : Property.DropdownOption :=
  Property.new_option v v.

(** [props], in the order of the source. *)
Definition props : list (string * Property.t) :=
  [ ("apiServerUrl",
      Property.ShortText "MinerU API server url" None true None);
    ("file",
      Property.File "File for parsing"
        (Some "base64 file from readFile piece") true);
    ("langList",
      Property.ShortText "Document language"
        (Some ("Improves OCR accuracy with " ++ quoted "pipeline"
               ++ " backend only. Supported values : ch , ch_server, ch_lite, en, korean, japan, chinese_cht, ta, te, ka, th, el, latin, arabic, east_slavic, cyrillic, devanagari"))
        false (Some ""));
    ("backend",
      Property.StaticDropdown "Backend for parsing"
        (Some "pipeline: More general, vlm-transformers:  More general, but slower, vlm-mlx-engine: Faster than transformers (need apple silicon and macOS 13.5+), vlm-vllm-async-engine: Faster (vllm-engine, need vllm installed), vlm-lmdeploy-engine: Faster (lmdeploy-engine, need lmdeploy installed), vlm-http-client: Faster (client suitable for openai-compatible servers)")
        true (Some "vlm-http-client")
        [ plain_option "pipeline";
          plain_option "vlm-transformers";
          plain_option "vlm-mlx-engine";
          plain_option "vlm-vllm-async-engine";
          plain_option "vlm-lmdeploy-engine";
          plain_option "vlm-http-client" ]);
    ("backendServerUrl",
      Property.ShortText "Backend OpenAI compatible server url"
        (Some ("Adapted only for " ++ quoted "vlm-http-client"
               ++ " backend, e.g., http://127.0.0.1:30000"))
        false None);
    ("parseMethod",
      Property.StaticDropdown "The method for parsing PDF"
        (Some ("Adapted only for pipeline backend. " ++ quoted "auto"
               ++ ": Automatically determine the method based on the file type, "
               ++ quoted "txt" ++ ": Use text extraction method, "
               ++ quoted "ocr" ++ ": ocr"))
        true (Some "auto")
        [ plain_option "auto"; plain_option "txt"; plain_option "ocr" ]);
    ("formulaEnable",
      Property.Checkbox "Enable formula parsing" None false (Some true));
    ("tableEnable",
      Property.Checkbox "Enable table parsing" None false (Some true));
    ("returnMD",
      Property.Checkbox "Return markdown content in response" None false
        (Some true));
    ("returnMiddleJson",
      Property.Checkbox "Return middle JSON in response" None false
        (Some false));
    ("returnModelOutput",
      Property.Checkbox "Return model output JSON in response" None false
        (Some false));
    ("returnContentList",
      Property.Checkbox "Return content list JSON in response" None false
        (Some false));
    ("returnImages",
      Property.Checkbox "Return extracted images in response" None false
        (Some false));
    ("responseFormatZip",
      Property.Checkbox "Return results as a ZIP file instead of JSON" None
        false (Some false));
    ("startPageId",
      Property.Number "Start page"
        (Some "The starting page for PDF parsing, beginning from 0")
        false (Some 0));
    ("endPageId",
      Property.Number "End page"
        (Some "The ending page for PDF parsing, beginning from 0")
        false (Some 99999)) ].

(** The declaration of a property, by its name. *)
Fixpoint declared (name : string) (ps : list (string * Property.t))
  : option Property.t :=
  match ps with
  | [] => None
  | (n, p) :: rest => if String.eqb n name then Some p else declared name rest
  end.

(** The [defaultValue] of a text, of a checkbox and of a number. *)
Definition default_text (name : string) : option string :=
  match declared name props with
  | Some (Property.ShortText _ _ _ d)
  | Some (Property.StaticDropdown _ _ _ d _) => d
  | _ => None
  end.

Definition default_flag (name : string) : option bool :=
  match declared name props with
  | Some (Property.Checkbox _ _ _ d) => d
  | _ => None
  end.

Definition default_number (name : string) : option Z :=
  match declared name props with
  | Some (Property.Number _ _ _ d) => d
  | _ => None
  end.

(** The options of a dropdown. *)
Definition options (name : string) : list Property.DropdownOption :=
  match declared name props with
  | Some p => Property.options_of p
  | None => []
  end.

(** The property values of a run that gives the two properties without a
    default and leaves every other one at its [defaultValue]. *)
Definition defaults (url : string) (f : ApFile) : PropsValue :=
  {| apiServerUrl := url;
     file := f;
     langList := default_text "langList";
     backend := default_text "backend";
     backendServerUrl := default_text "backendServerUrl";
     parseMethod := default_text "parseMethod";
     formulaEnable := default_flag "formulaEnable";
     tableEnable := default_flag "tableEnable";
     returnMD := default_flag "returnMD";
     returnMiddleJson := default_flag "returnMiddleJson";
     returnModelOutput := default_flag "returnModelOutput";
     returnContentList := default_flag "returnContentList";
     returnImages := default_flag "returnImages";
     responseFormatZip := default_flag "responseFormatZip";
     startPageId := default_number "startPageId";
     endPageId := default_number "endPageId" |}.

(** ** A small lookup table, for the concrete runs *)

Definition sample_lookup (ext : string) : option string :=
  if String.eqb ext "pdf" then Some "application/pdf"
  else if String.eqb ext "png" then Some "image/png"
  else if String.eqb ext "txt" then Some "text/plain"
  else None.

Definition sample_file : ApFile :=
  new_ApFile "a.pdf" ["%"%byte; "P"%byte; "D"%byte; "F"%byte] (Some "pdf").

(** The property values of a run with the declared defaults. *)
Definition sample_props : PropsValue :=
  {| apiServerUrl := "http://h";
     file := sample_file;
     langList := Some "";
     backend := Some "pipeline";
     backendServerUrl := None;
     parseMethod := Some "auto";
     formulaEnable := Some true;
     tableEnable := Some true;
     returnMD := Some true;
     returnMiddleJson := Some false;
     returnModelOutput := Some false;
     returnContentList := Some false;
     returnImages := Some false;
     responseFormatZip := Some false;
     startPageId := Some startPageId_defaultValue;
     endPageId := Some endPageId_defaultValue |}.

(** The same, asking for a ZIP. *)
Definition sample_zip_props : PropsValue :=
  {| apiServerUrl := "http://h";
     file := sample_file;
     langList := Some "en";
     backend := Some "pipeline";
     backendServerUrl := None;
     parseMethod := Some "auto";
     formulaEnable := Some true;
     tableEnable := None;
     returnMD := Some true;
     returnMiddleJson := Some false;
     returnModelOutput := Some false;
     returnContentList := Some false;
     returnImages := Some false;
     responseFormatZip := Some true;
     startPageId := Some 2;
     endPageId := Some 7 |}.

(** Responses: a parsed JSON document, the first bytes of a ZIP, a text
    where bytes were expected, and a failure of the server. *)
Definition ok_json : Response.t :=
  Response.make 200 (VObject [("markdown", VString "# Title")]).

Definition ok_zip : Response.t :=
  Response.make 200 (VBuffer [x50; x4b; x03; x04]).

Definition ok_text : Response.t :=
  Response.make 200 (VString "<html></html>").

Definition bad_gateway : Response.t :=
  Response.make 502 (VArray [VNumber 1; VNull]).

(** An empty ZIP archive starts otherwise. *)
Definition ok_empty_zip : Response.t :=
  Response.make 200 (VUint8Array [x50; x4b; x05; x06]).

(** Property values with other page bounds. *)
Definition with_pages (propsValue : PropsValue) (first last : option Z)
  : PropsValue :=
  {| apiServerUrl := apiServerUrl propsValue;
     file := file propsValue;
     langList := langList propsValue;
     backend := backend propsValue;
     backendServerUrl := backendServerUrl propsValue;
     parseMethod := parseMethod propsValue;
     formulaEnable := formulaEnable propsValue;
     tableEnable := tableEnable propsValue;
     returnMD := returnMD propsValue;
     returnMiddleJson := returnMiddleJson propsValue;
     returnModelOutput := returnModelOutput propsValue;
     returnContentList := returnContentList propsValue;
     returnImages := returnImages propsValue;
     responseFormatZip := responseFormatZip propsValue;
     startPageId := first;
     endPageId := last |}.

(** A client that answers every call with the same response. *)
Definition always (response : Response.t) : HttpClient :=
  fun _ _ => Fulfilled response.

(** A client whose transport fails. *)
Definition unreachable : HttpClient :=
  fun _ _ => Rejected (new_Error "connect ECONNREFUSED").

(** ** Vocabulary of the properties *)

(** [sub] occurs in [s]. *)
Definition contains (sub s : string) : Prop :=
  exists before after, s = before ++ sub ++ after.

(** The body is a byte buffer. *)
Definition is_binary (v : Value) : Prop :=
  exists bytes, v = VBuffer bytes \/ v = VUint8Array bytes.

(** [s] starts with [start]. *)
Fixpoint starts_with (start s : string) : bool :=
  match start, s with
  | EmptyString, _ => true
  | String _ _, EmptyString => false
  | String a start', String b s' => Ascii.eqb a b && starts_with start' s'
  end.

(** The error of line 149, told by the fixed start of its message. *)
Definition is_status_error (e : Error) : bool :=
  starts_with "MinerU API request failed with status " (message e).

(** The error of line 166. *)
Definition is_format_error (e : Error) : bool :=
  String.eqb (message e)
    "Expected ZIP file response but received non-binary data.".

(** A property that is [undefined] or the empty string. *)
Definition left_empty (x : option string) : Prop := x = None \/ x = Some "".

(** The text of a flag: ["true"] for a checked box, ["false"] for an
    unchecked or absent one. *)
Definition literal (flag : option bool) : string :=
  match flag with
  | Some true => "true"
  | Some false | None => "false"
  end.

(** The entries [append_if] adds to a form. *)
Definition added {A : Type} `{Truthy A} (x : option A)
    (render : A -> string) : list FormValue :=
  match x with
  | Some a => if truthy a then [FormString (render a)] else []
  | None => []
  end.

(** The value returned for a ZIP: lines 159 to 163. *)
Definition zip_result (name : string) (bytes : list byte) : Value :=
  VObject [ ("filename", VString (name ++ "_mineru_result.zip"));
            ("data", VString (Base64.encode bytes));
            ("extension", VString "zip") ].

(** The four ways the handling of a response ends. *)
Inductive Handled (JSON_stringify : Value -> string)
    (propsValue : PropsValue) (response : Response.t)
  : Action Value -> Prop :=
| Handled_status :
    300 <= Response.status response ->
    Handled JSON_stringify propsValue response
      (Throw (new_Error (status_message JSON_stringify response)))
| Handled_zip bytes :
    Response.status response < 300 ->
    responseFormatZip propsValue = Some true ->
    (Response.body response = VBuffer bytes
     \/ Response.body response = VUint8Array bytes) ->
    Handled JSON_stringify propsValue response
      (Return (zip_result (filename (file propsValue)) bytes))
| Handled_format :
    Response.status response < 300 ->
    responseFormatZip propsValue = Some true ->
    ~ is_binary (Response.body response) ->
    Handled JSON_stringify propsValue response
      (Throw (new_Error format_message))
| Handled_body :
    Response.status response < 300 ->
    responseFormatZip propsValue <> Some true ->
    Handled JSON_stringify propsValue response
      (Return (Response.body response)).

(** The names a form can hold, in the order of lines 122 to 136. *)
Definition field_names : list string :=
  [ "files"; "lang_list"; "backend"; "parse_method"; "server_url";
    "start_page_id"; "end_page_id"; "formula_enable"; "table_enable";
    "return_md"; "return_middle_json"; "return_model_output";
    "return_content_list"; "return_images"; "response_format_zip" ].

(** Whether a run sends the field of this name: an optional field when its
    property is truthy, every other field always. *)
Definition sent (propsValue : PropsValue) (name : string) : bool :=
  if String.eqb name "lang_list" then truthy (langList propsValue)
  else if String.eqb name "backend" then truthy (backend propsValue)
  else if String.eqb name "parse_method" then truthy (parseMethod propsValue)
  else if String.eqb name "server_url" then
    truthy (backendServerUrl propsValue)
  else if String.eqb name "start_page_id" then
    truthy (startPageId propsValue)
  else if String.eqb name "end_page_id" then truthy (endPageId propsValue)
  else true.

(** ** Lemmas on strings *)

Lemma append_nil_r (s : string) : s ++ "" = s.
Proof. induction s as [| c s IH]; simpl; [reflexivity | now rewrite IH]. Qed.

Lemma append_assoc (s1 s2 s3 : string) :
  (s1 ++ s2) ++ s3 = s1 ++ s2 ++ s3.
Proof.
  induction s1 as [| c s1 IH]; simpl; [reflexivity | now rewrite IH].
Qed.

Lemma contains_middle (before sub after : string) :
  contains sub (before ++ sub ++ after).
Proof. now exists before, after. Qed.

Lemma contains_end (before sub : string) : contains sub (before ++ sub).
Proof. exists before, "". now rewrite append_nil_r. Qed.

(** ** Lemmas on forms *)

Section FormLemmas.

Import Form.

Lemma getAll_app (form1 form2 : FormData) (name : string) :
  getAll (form1 ++ form2)%list name
  = (getAll form1 name ++ getAll form2 name)%list.
Proof.
  induction form1 as [| [n v] rest IH]; simpl.
  - reflexivity.
  - destruct (String.eqb n name); simpl; now rewrite IH.
Qed.

Lemma getAll_append (form : FormData) (k name : string) (v : FormValue) :
  getAll (append form k v) name
  = (getAll form name ++ if String.eqb k name then [v] else [])%list.
Proof.
  unfold append. rewrite getAll_app. simpl.
  now destruct (String.eqb k name).
Qed.

Lemma getAll_append_if {A : Type} `{Truthy A} (form : FormData)
    (x : option A) (k name : string) (render : A -> string) :
  getAll (append_if form x k render) name
  = (getAll form name
       ++ if String.eqb k name then added x render else [])%list.
Proof.
  unfold append_if, added.
  destruct x as [a |]; [destruct (truthy a) |];
    rewrite ?getAll_append; destruct (String.eqb k name);
    rewrite ?app_nil_r; reflexivity.
Qed.

Lemma truthy_string_empty (s : string) : truthy s = false <-> s = "".
Proof.
  unfold truthy, Truthy_string. destruct s; split; congruence.
Qed.

Lemma truthy_number_zero (n : Z) : truthy n = false <-> n = 0.
Proof.
  unfold truthy, Truthy_number.
  destruct (Z.eqb_spec n 0); simpl; split; congruence.
Qed.

Lemma added_falsy {A : Type} `{Truthy A} (x : option A)
    (render : A -> string) :
  truthy x = false -> added x render = [].
Proof.
  unfold added. destruct x as [a |]; [| reflexivity].
  unfold truthy at 1, Truthy_option. now intros ->.
Qed.

Lemma added_truthy {A : Type} `{Truthy A} (a : A) (render : A -> string) :
  truthy a = true -> added (Some a) render = [FormString (render a)].
Proof. intros E. unfold added. now rewrite E. Qed.

End FormLemmas.

(** Rewrites [getAll] through the appends of [buildForm] and decides the
    comparisons of field names. *)
Ltac form_fields :=
  unfold buildForm;
  repeat (rewrite getAll_append || rewrite getAll_append_if);
  cbn [Form.getAll Form.new_FormData String.eqb Ascii.eqb Bool.eqb app];
  rewrite ?app_nil_r.

(** ** Properties of the outbound form *)

Section FormProperties.

Variable mime_lookup : string -> option string.

Import Form.

Lemma true_or_false_literal (flag : option bool) :
  true_or_false flag = literal flag.
Proof. now destruct flag as [[|] |]. Qed.

(** The form in full: the file, the optional fields that have a value, the
    eight flags, in this order. *)
Lemma buildForm_fields (propsValue : PropsValue) :
  let f := file propsValue in
  let field name := map (pair name) in
  let flag name x := (name, FormString (literal x)) in
  buildForm mime_lookup propsValue
  = ([ ("files",
         FormFile (new_Blob (data f) (mimeType mime_lookup f)) (filename f)) ]
     ++ field "lang_list" (added (langList propsValue) id)
     ++ field "backend" (added (backend propsValue) id)
     ++ field "parse_method" (added (parseMethod propsValue) id)
     ++ field "server_url" (added (backendServerUrl propsValue) id)
     ++ field "start_page_id" (added (startPageId propsValue) String_)
     ++ field "end_page_id" (added (endPageId propsValue) String_)
     ++ [ flag "formula_enable" (formulaEnable propsValue);
          flag "table_enable" (tableEnable propsValue);
          flag "return_md" (returnMD propsValue);
          flag "return_middle_json" (returnMiddleJson propsValue);
          flag "return_model_output" (returnModelOutput propsValue);
          flag "return_content_list" (returnContentList propsValue);
          flag "return_images" (returnImages propsValue);
          flag "response_format_zip" (responseFormatZip propsValue) ])%list.
Proof.
  assert (Hif : forall (A : Type) (T : Truthy A) (form : FormData)
                  (x : option A) (k : string) (render : A -> string),
             append_if form x k render
             = (form ++ map (pair k) (added x render))%list).
  { intros A T form x k render. unfold append_if, added, append.
    destruct x as [a |]; [destruct (truthy a) |];
      simpl; now rewrite ?app_nil_r. }
  cbv zeta. unfold buildForm. rewrite !Hif, !true_or_false_literal.
  unfold append, new_FormData. now rewrite <- !app_assoc.
Qed.

(** C5.  A page bound that is 0 or absent leaves no [start_page_id]
    (respectively [end_page_id]) field in the form; a bound that is not 0
    gives exactly one such field, a text, and for a safe integer that text
    is [String] of the number, its decimal digits.  So a start page of 0,
    the declared default, is left out. *)
Theorem page_fields (propsValue : PropsValue) :
  let form := buildForm mime_lookup propsValue in
  (startPageId propsValue = None \/ startPageId propsValue = Some 0 ->
     getAll form "start_page_id" = [] /\ has form "start_page_id" = false)
  /\ (endPageId propsValue = None \/ endPageId propsValue = Some 0 ->
     getAll form "end_page_id" = [] /\ has form "end_page_id" = false)
  /\ (forall n, startPageId propsValue = Some n -> n <> 0 ->
     has form "start_page_id" = true
     /\ exists text, getAll form "start_page_id" = [FormString text])
  /\ (forall n, endPageId propsValue = Some n -> n <> 0 ->
     has form "end_page_id" = true
     /\ exists text, getAll form "end_page_id" = [FormString text])
  /\ (forall n, startPageId propsValue = Some n -> n <> 0 ->
     isSafeInteger n = true ->
     getAll form "start_page_id" = [FormString (String_ n)])
  /\ (forall n, endPageId propsValue = Some n -> n <> 0 ->
     isSafeInteger n = true ->
     getAll form "end_page_id" = [FormString (String_ n)])
  /\ (startPageId propsValue = Some startPageId_defaultValue ->
     has form "start_page_id" = false).
Proof.
  assert (Hfalsy : forall x : option Z,
             x = None \/ x = Some 0 -> truthy x = false)
    by (intros x [-> | ->]; reflexivity).
  assert (Htruthy : forall n : Z, n <> 0 -> truthy n = true)
    by (intros n Hn; destruct (truthy n) eqn:E;
        [reflexivity | now apply truthy_number_zero in E]).
  assert (Hstart0 : startPageId propsValue = None
                    \/ startPageId propsValue = Some 0 ->
                    getAll (buildForm mime_lookup propsValue) "start_page_id"
                    = []).
  { intros H. form_fields. now rewrite added_falsy by auto. }
  assert (Hend0 : endPageId propsValue = None
                  \/ endPageId propsValue = Some 0 ->
                  getAll (buildForm mime_lookup propsValue) "end_page_id"
                  = []).
  { intros H. form_fields. now rewrite added_falsy by auto. }
  assert (Hstart : forall n, startPageId propsValue = Some n -> n <> 0 ->
                     getAll (buildForm mime_lookup propsValue)
                       "start_page_id"
                     = [FormString (String_ n)]).
  { intros n E Hn. form_fields. rewrite E.
    now rewrite added_truthy by auto. }
  assert (Hend : forall n, endPageId propsValue = Some n -> n <> 0 ->
                   getAll (buildForm mime_lookup propsValue) "end_page_id"
                   = [FormString (String_ n)]).
  { intros n E Hn. form_fields. rewrite E.
    now rewrite added_truthy by auto. }
  cbv zeta. unfold has.
  split; [| split; [| split; [| split; [| split; [| split]]]]].
  - intros H. now rewrite Hstart0.
  - intros H. now rewrite Hend0.
  - intros n E Hn. rewrite (Hstart n E Hn). split; [reflexivity |].
    now exists (String_ n).
  - intros n E Hn. rewrite (Hend n E Hn). split; [reflexivity |].
    now exists (String_ n).
  - intros n E Hn _. now apply Hstart.
  - intros n E Hn _. now apply Hend.
  - intros E. rewrite Hstart0; [reflexivity | now right].
Qed.

(** C6.  The form has one [files] part, made of the file's bytes, name
    and MIME type.  That type is what the lookup table gives for the
    file's extension when there is an extension and the table knows it,
    and [application/octet-stream] when the extension is absent (or the
    empty string) or the table does not know it. *)
Theorem file_part_mime_type (propsValue : PropsValue) :
  let f := file propsValue in
  getAll (buildForm mime_lookup propsValue) "files"
  = [FormFile (new_Blob (data f) (mimeType mime_lookup f)) (filename f)]
  /\ (forall ext mime,
        extension f = Some ext -> ext <> "" ->
        mime_lookup ext = Some mime -> mime <> "" ->
        mimeType mime_lookup f = mime)
  /\ (extension f = None \/ extension f = Some "" ->
        mimeType mime_lookup f = "application/octet-stream")
  /\ (forall ext,
        extension f = Some ext -> mime_lookup ext = None ->
        mimeType mime_lookup f = "application/octet-stream").
Proof.
  cbv zeta. split; [| split; [| split]].
  - form_fields. reflexivity.
  - intros ext mime Hext Hne Hlook Hmime. unfold mimeType.
    rewrite Hext.
    destruct (truthy ext) eqn:E;
      [| now apply truthy_string_empty in E].
    rewrite Hlook. unfold or_else.
    destruct (truthy mime) eqn:E';
      [reflexivity | now apply truthy_string_empty in E'].
  - unfold mimeType. now intros [-> | ->].
  - intros ext Hext Hlook. unfold mimeType. rewrite Hext, Hlook.
    now destruct (truthy ext).
Qed.

(** C7.  An optional string property ([langList], [backend],
    [parseMethod], [backendServerUrl]) that is left empty gives no field
    of its name ([lang_list], [backend], [parse_method], [server_url]);
    each of the eight flags gives exactly one field, holding ["true"] or
    ["false"] as the flag is. *)
Theorem optional_and_flag_fields (propsValue : PropsValue) :
  let form := buildForm mime_lookup propsValue in
  (left_empty (langList propsValue) -> getAll form "lang_list" = [])
  /\ (left_empty (backend propsValue) -> getAll form "backend" = [])
  /\ (left_empty (parseMethod propsValue) ->
        getAll form "parse_method" = [])
  /\ (left_empty (backendServerUrl propsValue) ->
        getAll form "server_url" = [])
  /\ getAll form "formula_enable"
     = [FormString (literal (formulaEnable propsValue))]
  /\ getAll form "table_enable"
     = [FormString (literal (tableEnable propsValue))]
  /\ getAll form "return_md"
     = [FormString (literal (returnMD propsValue))]
  /\ getAll form "return_middle_json"
     = [FormString (literal (returnMiddleJson propsValue))]
  /\ getAll form "return_model_output"
     = [FormString (literal (returnModelOutput propsValue))]
  /\ getAll form "return_content_list"
     = [FormString (literal (returnContentList propsValue))]
  /\ getAll form "return_images"
     = [FormString (literal (returnImages propsValue))]
  /\ getAll form "response_format_zip"
     = [FormString (literal (responseFormatZip propsValue))].
Proof.
  assert (Hempty : forall x : option string,
             left_empty x -> added x id = [])
    by (intros x [-> | ->]; reflexivity).
  cbv zeta.
  repeat split; try intros H; form_fields;
    rewrite ?true_or_false_literal; auto.
Qed.

End FormProperties.

(** ** Properties of an invocation *)

Section RunProperties.

Variable mime_lookup : string -> option string.
Variable JSON_stringify : Value -> string.

Lemma handleResponse_Handled (propsValue : PropsValue)
    (response : Response.t) :
  Handled JSON_stringify propsValue response
    (handleResponse JSON_stringify propsValue response).
Proof.
  unfold handleResponse.
  destruct (Z.geb_spec (Response.status response) 300) as [Hs | Hs].
  - now constructor.
  - destruct (responseFormatZip propsValue) as [[|] |] eqn:Ez; simpl.
    + destruct (Response.body response) eqn:Eb; simpl;
        try (apply Handled_format; auto;
             rewrite Eb; intros [bytes' [H | H]]; discriminate).
      * apply (@Handled_zip _ _ _ bytes); auto.
      * apply (@Handled_zip _ _ _ bytes); auto.
    + apply Handled_body; [assumption | now rewrite Ez].
    + apply Handled_body; [assumption | now rewrite Ez].
Qed.

(** A handled response sends nothing more. *)
Lemma calls_Handled (client : HttpClient) (n : nat)
    (propsValue : PropsValue) (response : Response.t) (m : Action Value) :
  Handled JSON_stringify propsValue response m ->
  calls (exec client n m) = [].
Proof. now destruct 1. Qed.

(** An invocation sends its request; when the client answers, the
    response is handled and nothing more is sent. *)
Lemma exec_run (client : HttpClient) (n : nat) (propsValue : PropsValue) :
  exec client n (run mime_lookup JSON_stringify propsValue)
  = match client n (request mime_lookup propsValue) with
    | Fulfilled response =>
        new_Execution [request mime_lookup propsValue]
          (outcome (exec client (S n)
                      (handleResponse JSON_stringify propsValue response)))
    | Rejected e =>
        new_Execution [request mime_lookup propsValue] (Rejected e)
    end.
Proof.
  unfold run, sendRequest. cbn [bind exec].
  destruct (client n (request mime_lookup propsValue)) as [response | e];
    [| reflexivity].
  now rewrite (calls_Handled client (S n)
                 (handleResponse_Handled propsValue response)).
Qed.

Lemma outcome_run (client : HttpClient) (n : nat)
    (propsValue : PropsValue) (response : Response.t) :
  client n (request mime_lookup propsValue) = Fulfilled response ->
  outcome (exec client n (run mime_lookup JSON_stringify propsValue))
  = outcome (exec client (S n)
               (handleResponse JSON_stringify propsValue response)).
Proof. intros E. now rewrite exec_run, E. Qed.

(** A failure of the transport is the failure of the invocation. *)
Lemma transport_failure (client : HttpClient) (n : nat)
    (propsValue : PropsValue) (e : Error) :
  client n (request mime_lookup propsValue) = Rejected e ->
  outcome (exec client n (run mime_lookup JSON_stringify propsValue))
  = Rejected e.
Proof. intros E. now rewrite exec_run, E. Qed.

Lemma status_message_is_status_error (response : Response.t) :
  is_status_error (new_Error (status_message JSON_stringify response))
  = true.
Proof. reflexivity. Qed.

Lemma status_message_not_format_error (response : Response.t) :
  is_format_error (new_Error (status_message JSON_stringify response))
  = false.
Proof. reflexivity. Qed.

(** C1.  When the client answers with a status of 300 or more, the
    invocation fails with the error whose message is the fixed text, the
    status code, a colon and the JSON text of the body; the status code
    and the JSON text occur in it.  When the status is below 300 the
    invocation does not fail with that error. *)
Theorem status_error (client : HttpClient) (n : nat)
    (propsValue : PropsValue) (response : Response.t) :
  client n (request mime_lookup propsValue) = Fulfilled response ->
  let result :=
    outcome (exec client n (run mime_lookup JSON_stringify propsValue)) in
  (300 <= Response.status response ->
     exists e,
       result = Rejected e
       /\ message e
          = "MinerU API request failed with status "
              ++ String_ (Response.status response) ++ ": "
              ++ JSON_stringify (Response.body response)
       /\ contains (String_ (Response.status response)) (message e)
       /\ contains (JSON_stringify (Response.body response)) (message e)
       /\ is_status_error e = true)
  /\ (Response.status response < 300 ->
        forall e, result = Rejected e -> is_status_error e = false).
Proof.
  intros Hc result. subst result. rewrite (outcome_run _ _ _ Hc).
  destruct (handleResponse_Handled propsValue response)
    as [Hge | bytes' Hlt Hflag Hbody | Hlt Hflag Hnb | Hlt Hflag];
    cbn [exec outcome].
  - (* line 149 *)
    split; [intros _ | lia].
    eexists. split; [reflexivity |]. cbn [message]. repeat split.
    + apply contains_middle.
    + unfold status_message. rewrite <- !append_assoc.
      apply contains_end.
  - split; [lia | intros _ e E; discriminate E].
  - (* line 166: another error *)
    split; [lia | intros _ e E]. now inversion E.
  - split; [lia | intros _ e E; discriminate E].
Qed.

(** C2.  When a ZIP was asked for, the status is below 300 and the body
    is a byte buffer, the invocation returns the object with [filename]
    the file's name followed by [_mineru_result.zip], [data] the base64
    text of the body's bytes and [extension] ["zip"]. *)
Theorem zip_returned (client : HttpClient) (n : nat)
    (propsValue : PropsValue) (response : Response.t)
    (bytes : list byte) :
  client n (request mime_lookup propsValue) = Fulfilled response ->
  responseFormatZip propsValue = Some true ->
  Response.status response < 300 ->
  (Response.body response = VBuffer bytes
   \/ Response.body response = VUint8Array bytes) ->
  outcome (exec client n (run mime_lookup JSON_stringify propsValue))
  = Fulfilled
      (VObject
         [ ("filename",
             VString (filename (file propsValue) ++ "_mineru_result.zip"));
           ("data", VString (Base64.encode bytes));
           ("extension", VString "zip") ]).
Proof.
  intros Hc Hz Hs Hb. rewrite (outcome_run _ _ _ Hc).
  destruct (handleResponse_Handled propsValue response)
    as [Hge | bytes' Hlt Hflag Hbody | Hlt Hflag Hnb | Hlt Hflag];
    cbn [exec outcome].
  - lia.
  - replace bytes' with bytes by (intuition congruence). reflexivity.
  - exfalso. apply Hnb. now exists bytes.
  - congruence.
Qed.

(** C3.  When a ZIP was asked for, the status is below 300 and the body
    is not a byte buffer, the invocation fails with the error "Expected
    ZIP file response but received non-binary data." *)
Theorem format_mismatch (client : HttpClient) (n : nat)
    (propsValue : PropsValue) (response : Response.t) :
  client n (request mime_lookup propsValue) = Fulfilled response ->
  responseFormatZip propsValue = Some true ->
  Response.status response < 300 ->
  ~ is_binary (Response.body response) ->
  outcome (exec client n (run mime_lookup JSON_stringify propsValue))
  = Rejected
      (new_Error "Expected ZIP file response but received non-binary data.").
Proof.
  intros Hc Hz Hs Hb. rewrite (outcome_run _ _ _ Hc).
  destruct (handleResponse_Handled propsValue response)
    as [Hge | bytes' Hlt Hflag Hbody | Hlt Hflag Hnb | Hlt Hflag];
    cbn [exec outcome].
  - lia.
  - exfalso. apply Hb. now exists bytes'.
  - reflexivity.
  - congruence.
Qed.

(** C4.  When no ZIP was asked for and the status is below 300, the
    invocation returns the body of the response as it is, whatever value
    that is. *)
Theorem body_returned (client : HttpClient) (n : nat)
    (propsValue : PropsValue) (response : Response.t) :
  client n (request mime_lookup propsValue) = Fulfilled response ->
  responseFormatZip propsValue <> Some true ->
  Response.status response < 300 ->
  outcome (exec client n (run mime_lookup JSON_stringify propsValue))
  = Fulfilled (Response.body response).
Proof.
  intros Hc Hz Hs. rewrite (outcome_run _ _ _ Hc).
  destruct (handleResponse_Handled propsValue response)
    as [Hge | bytes' Hlt Hflag Hbody | Hlt Hflag Hnb | Hlt Hflag];
    cbn [exec outcome].
  - lia.
  - congruence.
  - congruence.
  - reflexivity.
Qed.

(** C8.  Whatever the client does, an invocation sends exactly one
    request: a POST to the server URL followed by [/file_parse], with the
    header [Content-Type: multipart/form-data] and the form as its body. *)
Theorem one_post (client : HttpClient) (n : nat)
    (propsValue : PropsValue) :
  calls (exec client n (run mime_lookup JSON_stringify propsValue))
  = [ Request.make
        (apiServerUrl propsValue ++ "/file_parse")
        POST
        [("Content-Type", "multipart/form-data")]
        (buildForm mime_lookup propsValue) ].
Proof.
  rewrite exec_run.
  now destruct (client n (request mime_lookup propsValue)).
Qed.

(** C10.  The status is checked before the format: with a status of 300
    or more the invocation fails with the status error, also when a ZIP
    was asked for and the body is not a byte buffer; and when it fails
    with the format error, the status was below 300. *)
Theorem status_before_format (client : HttpClient) (n : nat)
    (propsValue : PropsValue) (response : Response.t) :
  client n (request mime_lookup propsValue) = Fulfilled response ->
  let result :=
    outcome (exec client n (run mime_lookup JSON_stringify propsValue)) in
  (300 <= Response.status response ->
     exists e,
       result = Rejected e
       /\ is_status_error e = true /\ is_format_error e = false)
  /\ (forall e,
        result = Rejected e -> is_format_error e = true ->
        Response.status response < 300
        /\ responseFormatZip propsValue = Some true
        /\ ~ is_binary (Response.body response)).
Proof.
  intros Hc result. subst result. rewrite (outcome_run _ _ _ Hc).
  destruct (handleResponse_Handled propsValue response)
    as [Hge | bytes' Hlt Hflag Hbody | Hlt Hflag Hnb | Hlt Hflag];
    cbn [exec outcome].
  - (* line 149 comes first, whatever the flag and the body *)
    split.
    + intros _. eexists. split; [reflexivity |]. split; reflexivity.
    + intros e E Hf. inversion E; subst e. discriminate Hf.
  - split; [lia | intros e E; discriminate E].
  - split; [lia | auto].
  - split; [lia | intros e E; discriminate E].
Qed.

End RunProperties.

(** ** Further properties of the form *)

Section FormShape.

Variable mime_lookup : string -> option string.

Import Form.

Lemma getAll_absent (form : FormData) (name : string) :
  ~ In name (map fst form) -> getAll form name = [].
Proof.
  induction form as [| [n v] rest IH]; simpl; [reflexivity |].
  intros Hn. destruct (String.eqb_spec n name) as [-> | _].
  - exfalso. apply Hn. now left.
  - apply IH. intros Hin. apply Hn. now right.
Qed.

Lemma keys_added {A : Type} `{Truthy A} (x : option A) (k : string)
    (render : A -> string) :
  map fst (map (pair k) (added x render)) = if truthy x then [k] else [].
Proof.
  unfold added. destruct x as [a |]; [| reflexivity].
  unfold truthy at 2, Truthy_option. now destruct (truthy a).
Qed.

(** The names of the form: the fifteen names in their order, without the
    optional ones whose property has no value. *)
Lemma buildForm_keys (propsValue : PropsValue) :
  map fst (buildForm mime_lookup propsValue)
  = filter (sent propsValue) field_names.
Proof.
  rewrite buildForm_fields. cbv zeta.
  rewrite !map_app, !keys_added.
  unfold field_names, sent.
  cbn [filter String.eqb Ascii.eqb Bool.eqb map fst app].
  destruct (truthy (langList propsValue)),
    (truthy (backend propsValue)),
    (truthy (parseMethod propsValue)),
    (truthy (backendServerUrl propsValue)),
    (truthy (startPageId propsValue)),
    (truthy (endPageId propsValue)); reflexivity.
Qed.

Lemma field_names_NoDup : NoDup field_names.
Proof.
  unfold field_names.
  repeat (constructor;
          [cbn [In]; intros H;
           repeat (destruct H as [H | H]; [discriminate H |]); exact H |]).
  constructor.
Qed.

(** X1.  The names of the form are the fifteen field names of lines 122 to
    136 in that order, an optional one being there only when its property
    is truthy; a field of any other name is not in the form. *)
Theorem form_field_names (propsValue : PropsValue) :
  let form := buildForm mime_lookup propsValue in
  map fst form = filter (sent propsValue) field_names
  /\ (forall name, ~ In name field_names ->
        getAll form name = [] /\ has form name = false).
Proof.
  cbv zeta. split; [apply buildForm_keys |].
  intros name Hn.
  assert (E : getAll (buildForm mime_lookup propsValue) name = []).
  { apply getAll_absent. rewrite buildForm_keys.
    intros Hin. apply filter_In in Hin. now apply Hn. }
  unfold has. now rewrite E.
Qed.

(** X2.  No field name occurs twice in the form, and the form has between
    nine fields (the file and the eight flags) and fifteen. *)
Theorem form_fields_once (propsValue : PropsValue) :
  let form := buildForm mime_lookup propsValue in
  NoDup (map fst form)
  /\ (9 <= List.length form <= 15)%nat.
Proof.
  cbv zeta. split.
  - rewrite buildForm_keys. apply NoDup_filter, field_names_NoDup.
  - rewrite <- (length_map fst), buildForm_keys.
    unfold field_names, sent.
    cbn [filter String.eqb Ascii.eqb Bool.eqb].
    destruct (truthy (langList propsValue)),
      (truthy (backend propsValue)),
      (truthy (parseMethod propsValue)),
      (truthy (backendServerUrl propsValue)),
      (truthy (startPageId propsValue)),
      (truthy (endPageId propsValue)); cbn [List.length]; lia.
Qed.

(** X3.  An optional text property that holds a text which is not empty is
    sent as exactly one field, holding that text unchanged. *)
Theorem text_fields_verbatim (propsValue : PropsValue) (s : string) :
  s <> "" ->
  let form := buildForm mime_lookup propsValue in
  (langList propsValue = Some s -> getAll form "lang_list" = [FormString s])
  /\ (backend propsValue = Some s -> getAll form "backend" = [FormString s])
  /\ (parseMethod propsValue = Some s ->
        getAll form "parse_method" = [FormString s])
  /\ (backendServerUrl propsValue = Some s ->
        getAll form "server_url" = [FormString s]).
Proof.
  intros Hs.
  assert (Ht : truthy s = true)
    by (destruct (truthy s) eqn:E;
        [reflexivity | now apply truthy_string_empty in E]).
  cbv zeta. repeat split; intros E; form_fields; rewrite E;
    now rewrite added_truthy.
Qed.

(** X4.  The MIME type given to the blob is never the empty string,
    whatever the lookup answers. *)
Theorem mimeType_not_empty (f : ApFile) : mimeType mime_lookup f <> "".
Proof.
  unfold mimeType, or_else, octet_stream.
  destruct (extension f) as [ext |]; [| discriminate].
  destruct (truthy ext); [| discriminate].
  destruct (mime_lookup ext) as [mime |]; [| discriminate].
  destruct (truthy mime) eqn:E; [| discriminate].
  intros ->. discriminate E.
Qed.

(** X5.  With every optional property at its declared default, the form
    holds the file, [backend] ["vlm-http-client"], [parse_method] ["auto"],
    [end_page_id] ["99999"] and the eight flags; [lang_list], [server_url]
    and [start_page_id] are not sent. *)
Theorem default_form (url : string) (f : ApFile) :
  buildForm mime_lookup (defaults url f)
  = [ ("files",
        FormFile (new_Blob (data f) (mimeType mime_lookup f)) (filename f));
      ("backend", FormString "vlm-http-client");
      ("parse_method", FormString "auto");
      ("end_page_id", FormString "99999");
      ("formula_enable", FormString "true");
      ("table_enable", FormString "true");
      ("return_md", FormString "true");
      ("return_middle_json", FormString "false");
      ("return_model_output", FormString "false");
      ("return_content_list", FormString "false");
      ("return_images", FormString "false");
      ("response_format_zip", FormString "false") ].
Proof. reflexivity. Qed.

(** X6.  Every option the [backend] and [parseMethod] dropdowns offer is,
    when chosen, sent unchanged as the one [backend] (respectively
    [parse_method]) field. *)
Theorem dropdown_choice_sent (propsValue : PropsValue)
    (o : Property.DropdownOption) :
  let form := buildForm mime_lookup propsValue in
  (In o (options "backend") ->
   backend propsValue = Some (Property.value o) ->
   getAll form "backend" = [FormString (Property.value o)])
  /\ (In o (options "parseMethod") ->
      parseMethod propsValue = Some (Property.value o) ->
      getAll form "parse_method" = [FormString (Property.value o)]).
Proof.
  cbv zeta. split; intros Ho E; form_fields; rewrite E;
    cbn in Ho; repeat (destruct Ho as [<- | Ho]; [reflexivity |]);
    destruct Ho.
Qed.

Lemma to_int_not_nil (n : Z) :
  Z.to_int n <> Decimal.Pos Decimal.Nil
  /\ Z.to_int n <> Decimal.Neg Decimal.Nil.
Proof.
  split; intros E; pose proof (DecimalZ.of_to n) as H; rewrite E in H;
    cbn in H; subst n; discriminate E.
Qed.

(** The decimal text can be read back. *)
Lemma String_read_back (n : Z) :
  NilZero.int_of_string (String_ n) = Some (Z.to_int n).
Proof.
  unfold String_. destruct (to_int_not_nil n) as [Hp Hn].
  now apply NilZero.isi.
Qed.

Lemma String_inj (n1 n2 : Z) : String_ n1 = String_ n2 -> n1 = n2.
Proof.
  intros E. apply DecimalZ.to_int_inj.
  pose proof (String_read_back n1) as H1.
  pose proof (String_read_back n2) as H2.
  rewrite E in H1. congruence.
Qed.

(** X7.  The page fields tell the page numbers apart: two runs whose start
    pages (or end pages) are safe integers other than 0 and that send the
    same [start_page_id] (respectively [end_page_id]) have the same start
    page (end page). *)
Theorem page_fields_tell_pages (propsValue1 propsValue2 : PropsValue)
    (n1 n2 : Z) :
  n1 <> 0 -> n2 <> 0 ->
  isSafeInteger n1 = true -> isSafeInteger n2 = true ->
  let form1 := buildForm mime_lookup propsValue1 in
  let form2 := buildForm mime_lookup propsValue2 in
  (startPageId propsValue1 = Some n1 -> startPageId propsValue2 = Some n2 ->
   getAll form1 "start_page_id" = getAll form2 "start_page_id" -> n1 = n2)
  /\ (endPageId propsValue1 = Some n1 -> endPageId propsValue2 = Some n2 ->
      getAll form1 "end_page_id" = getAll form2 "end_page_id" -> n1 = n2).
Proof.
  intros H1 H2 _ _.
  assert (Ht : forall n : Z, n <> 0 -> truthy n = true)
    by (intros n Hn; destruct (truthy n) eqn:E;
        [reflexivity | now apply truthy_number_zero in E]).
  cbv zeta. split; intros E1 E2; form_fields; rewrite E1, E2;
    rewrite !added_truthy by auto; intros E; apply String_inj; congruence.
Qed.

End FormShape.

(** ** Further properties of an invocation *)

Section Outcomes.

Variable mime_lookup : string -> option string.
Variable JSON_stringify : Value -> string.

(** X8.  When the client fails (a transport failure), the invocation has
    sent its one request and fails with the client's error, unchanged: the
    action catches nothing. *)
Theorem transport_failure_propagates (client : HttpClient) (n : nat)
    (propsValue : PropsValue) (e : Error) :
  client n (request mime_lookup propsValue) = Rejected e ->
  exec client n (run mime_lookup JSON_stringify propsValue)
  = new_Execution [request mime_lookup propsValue] (Rejected e).
Proof. intros E. now rewrite exec_run, E. Qed.

(** X9.  An invocation that returns a value was answered with a status
    below 300, and the value is the body when no ZIP was asked for, or the
    ZIP object made of a body that is a byte buffer when one was.  So
    nothing is returned for a status of 300 or more. *)
Theorem returned_value (client : HttpClient) (n : nat)
    (propsValue : PropsValue) (v : Value) :
  outcome (exec client n (run mime_lookup JSON_stringify propsValue))
  = Fulfilled v ->
  exists response,
    client n (request mime_lookup propsValue) = Fulfilled response
    /\ Response.status response < 300
    /\ ((responseFormatZip propsValue <> Some true
         /\ v = Response.body response)
        \/ (responseFormatZip propsValue = Some true
            /\ is_binary (Response.body response)
            /\ v = VObject
                 [ ("filename",
                     VString (filename (file propsValue)
                                ++ "_mineru_result.zip"));
                   ("data",
                     VString (Base64.encode
                                (Buffer_from (Response.body response))));
                   ("extension", VString "zip") ])).
Proof.
  rewrite exec_run.
  destruct (client n (request mime_lookup propsValue)) as [response | e];
    cbn [outcome]; [| discriminate].
  intros E. exists response. split; [reflexivity |].
  destruct (handleResponse_Handled JSON_stringify propsValue response)
    as [Hge | bytes Hlt Hflag Hbody | Hlt Hflag Hnb | Hlt Hflag];
    cbn [exec outcome] in E; try discriminate E;
    injection E as <-; (split; [assumption |]).
  - right. split; [assumption |]. split; [now exists bytes |].
    now destruct Hbody as [-> | ->].
  - now left.
Qed.

(** X10.  An invocation that fails does so in one of three ways: the client
    failed with this error; or it answered with a status of 300 or more
    and the error is the status error of that response; or it answered
    with a status below 300 when a ZIP was asked for, the body is no byte
    buffer and the error is the format error. *)
Theorem thrown_error (client : HttpClient) (n : nat)
    (propsValue : PropsValue) (e : Error) :
  outcome (exec client n (run mime_lookup JSON_stringify propsValue))
  = Rejected e ->
  client n (request mime_lookup propsValue) = Rejected e
  \/ exists response,
       client n (request mime_lookup propsValue) = Fulfilled response
       /\ ((300 <= Response.status response
            /\ message e
               = "MinerU API request failed with status "
                   ++ String_ (Response.status response) ++ ": "
                   ++ JSON_stringify (Response.body response))
           \/ (Response.status response < 300
               /\ responseFormatZip propsValue = Some true
               /\ ~ is_binary (Response.body response)
               /\ message e
                  = "Expected ZIP file response but received non-binary data.")).
Proof.
  rewrite exec_run.
  destruct (client n (request mime_lookup propsValue)) as [response | e'];
    cbn [outcome]; [| intros E; left; now injection E as ->].
  intros E. right. exists response. split; [reflexivity |].
  destruct (handleResponse_Handled JSON_stringify propsValue response)
    as [Hge | bytes Hlt Hflag Hbody | Hlt Hflag Hnb | Hlt Hflag];
    cbn [exec outcome] in E; try discriminate E;
    injection E as <-.
  - left. now split.
  - right. repeat split; assumption.
Qed.

End Outcomes.

(** ** The base64 text of line 161 *)

Section Base64Properties.

(** Lists three elements at a time, as [Base64.encode] reads them. *)
Lemma list_ind3 (A : Type) (P : list A -> Prop) :
  P [] ->
  (forall a, P [a]) ->
  (forall a b, P [a; b]) ->
  (forall a b c rest, P rest -> P (a :: b :: c :: rest)) ->
  forall l, P l.
Proof.
  intros H0 H1 H2 H3 l.
  assert (H : P l /\ (forall a, P (a :: l)) /\ (forall a b, P (a :: b :: l))).
  { induction l as [| x l (IH0 & IH1 & IH2)]; [now auto |].
    split; [apply IH1 |]. split; [intros a; apply IH2 |].
    intros a b. now apply H3. }
  apply H.
Qed.

Lemma encode_length (bytes : list byte) :
  String.length (Base64.encode bytes)
  = (4 * ((List.length bytes + 2) / 3))%nat.
Proof.
  induction bytes as [| a | a b | a b c rest IH] using list_ind3;
    try reflexivity.
  cbn [Base64.encode String.length List.length]. rewrite IH.
  replace (S (S (S (List.length rest))) + 2)%nat
    with (List.length rest + 2 + 1 * 3)%nat by lia.
  rewrite Nat.div_add by discriminate. lia.
Qed.

Lemma value_digit (n : N) :
  (n < 64)%N -> Base64.value (Base64.digit n) = Some n.
Proof.
  intros H. destruct n as [| p]; [reflexivity |].
  do 6 (destruct p as [p | p |]; try reflexivity); lia.
Qed.

Lemma value_pad : Base64.value Base64.pad = None.
Proof. reflexivity. Qed.

(** The four six-bit groups of three bytes, and the bytes back. *)
Ltac groups :=
  rewrite ?N.shiftr_div_pow2;
  change 63%N with (N.ones 6); change 255%N with (N.ones 8);
  rewrite ?N.land_ones;
  change (2 ^ 18)%N with 262144%N; change (2 ^ 16)%N with 65536%N;
  change (2 ^ 12)%N with 4096%N; change (2 ^ 8)%N with 256%N;
  change (2 ^ 6)%N with 64%N.

Lemma bytes_of_group (count : nat) (a b c : byte) :
  Base64.bytes_of count
    (Byte.to_N a * 65536 + Byte.to_N b * 256 + Byte.to_N c)%N
  = Some (firstn count [a; b; c]).
Proof.
  pose proof (Byte.to_N_bounded a) as Ha.
  pose proof (Byte.to_N_bounded b) as Hb.
  pose proof (Byte.to_N_bounded c) as Hc.
  unfold Base64.bytes_of. groups.
  set (n := (Byte.to_N a * 65536 + Byte.to_N b * 256 + Byte.to_N c)%N).
  replace (n / 65536)%N with (Byte.to_N a)
    by (subst n; zify; Z.to_euclidean_division_equations; lia).
  replace ((n / 256) mod 256)%N with (Byte.to_N b)
    by (subst n; zify; Z.to_euclidean_division_equations; lia).
  replace (n mod 256)%N with (Byte.to_N c)
    by (subst n; zify; Z.to_euclidean_division_equations; lia).
  now rewrite !Byte.of_to_N.
Qed.

(** The six-bit groups of a number of 24 bits put it together again; the
    low groups of a padded one are 0. *)
Lemma group_digits (n : N) :
  (n < 16777216)%N ->
  let d1 := N.shiftr n 18 in
  let d2 := N.land (N.shiftr n 12) 63 in
  let d3 := N.land (N.shiftr n 6) 63 in
  let d4 := N.land n 63 in
  (d1 < 64 /\ d2 < 64 /\ d3 < 64 /\ d4 < 64
   /\ d1 * 262144 + d2 * 4096 + d3 * 64 + d4 = n
   /\ (n mod 256 = 0 -> d4 = 0)
   /\ (n mod 65536 = 0 -> d3 = 0))%N.
Proof.
  intros Hn. cbv zeta. groups.
  repeat split; try intros H0;
    zify; Z.to_euclidean_division_equations; lia.
Qed.

Lemma group_bound (a b c : byte) :
  (Byte.to_N a * 65536 + Byte.to_N b * 256 + Byte.to_N c < 16777216)%N.
Proof.
  pose proof (Byte.to_N_bounded a). pose proof (Byte.to_N_bounded b).
  pose proof (Byte.to_N_bounded c). lia.
Qed.

(** Reading the text back gives the bytes. *)
Lemma decode_encode (bytes : list byte) :
  Base64.decode (Base64.encode bytes) = Some bytes.
Proof.
  induction bytes as [| a | a b | a b c rest IH] using list_ind3.
  - reflexivity.
  - cbn [Base64.encode]. cbv zeta.
    pose proof (group_bound a x00 x00) as Hn.
    pose proof (bytes_of_group 1 a x00 x00) as Hb.
    change (Byte.to_N x00) with 0%N in Hn, Hb.
    rewrite !N.mul_0_l, !N.add_0_r in Hn, Hb.
    destruct (group_digits Hn) as (H1 & H2 & _ & _ & E & E4 & E3).
    rewrite E4, E3 in E
      by (zify; Z.to_euclidean_division_equations; lia).
    rewrite !N.mul_0_l, !N.add_0_r in E.
    cbn [Base64.decode].
    rewrite (value_digit H1), (value_digit H2), value_pad. cbv zeta.
    rewrite E. exact Hb.
  - cbn [Base64.encode]. cbv zeta.
    pose proof (group_bound a b x00) as Hn.
    pose proof (bytes_of_group 2 a b x00) as Hb.
    change (Byte.to_N x00) with 0%N in Hn, Hb.
    rewrite !N.add_0_r in Hn, Hb.
    destruct (group_digits Hn) as (H1 & H2 & H3 & _ & E & E4 & _).
    rewrite E4 in E by (zify; Z.to_euclidean_division_equations; lia).
    rewrite !N.add_0_r in E.
    cbn [Base64.decode].
    rewrite (value_digit H1), (value_digit H2), (value_digit H3), value_pad.
    cbv zeta. rewrite E. exact Hb.
  - cbn [Base64.encode]. cbv zeta.
    pose proof (group_bound a b c) as Hn.
    destruct (group_digits Hn) as (H1 & H2 & H3 & H4 & E & _).
    cbn [Base64.decode]. fold Base64.decode.
    rewrite (value_digit H1), (value_digit H2), (value_digit H3),
      (value_digit H4).
    cbv zeta. rewrite E, bytes_of_group, IH. reflexivity.
Qed.

Lemma encode_inj (bytes1 bytes2 : list byte) :
  Base64.encode bytes1 = Base64.encode bytes2 -> bytes1 = bytes2.
Proof.
  intros E. pose proof (decode_encode bytes1) as H.
  rewrite E, decode_encode in H. congruence.
Qed.

Variable mime_lookup : string -> option string.
Variable JSON_stringify : Value -> string.

(** What is returned for a ZIP. *)
Lemma outcome_zip (client : HttpClient) (n : nat) (propsValue : PropsValue)
    (response : Response.t) :
  client n (request mime_lookup propsValue) = Fulfilled response ->
  responseFormatZip propsValue = Some true ->
  Response.status response < 300 ->
  is_binary (Response.body response) ->
  outcome (exec client n (run mime_lookup JSON_stringify propsValue))
  = Fulfilled (zip_result (filename (file propsValue))
                 (Buffer_from (Response.body response))).
Proof.
  intros Hc Hz Hs [bytes Hb]. rewrite (outcome_run mime_lookup JSON_stringify _ _ _ Hc).
  destruct (handleResponse_Handled JSON_stringify propsValue response)
    as [Hge | bytes' Hlt Hflag Hbody | Hlt Hflag Hnb | Hlt Hflag];
    cbn [exec outcome].
  - lia.
  - now destruct Hbody as [-> | ->].
  - exfalso. apply Hnb. now exists bytes.
  - congruence.
Qed.

(** X11.  The returned ZIP object tells the bytes of the body: two
    invocations with the same property values that ask for a ZIP, are
    answered with a status below 300 and a byte buffer, and return the same
    value, were answered with the same bytes. *)
Theorem zip_data_tells_bytes (client1 client2 : HttpClient) (n1 n2 : nat)
    (propsValue : PropsValue) (response1 response2 : Response.t) :
  responseFormatZip propsValue = Some true ->
  client1 n1 (request mime_lookup propsValue) = Fulfilled response1 ->
  client2 n2 (request mime_lookup propsValue) = Fulfilled response2 ->
  Response.status response1 < 300 ->
  Response.status response2 < 300 ->
  is_binary (Response.body response1) ->
  is_binary (Response.body response2) ->
  outcome (exec client1 n1 (run mime_lookup JSON_stringify propsValue))
  = outcome (exec client2 n2 (run mime_lookup JSON_stringify propsValue)) ->
  Buffer_from (Response.body response1)
  = Buffer_from (Response.body response2).
Proof.
  intros Hz Hc1 Hc2 Hs1 Hs2 Hb1 Hb2.
  rewrite (outcome_zip _ _ _ Hc1 Hz Hs1 Hb1),
    (outcome_zip _ _ _ Hc2 Hz Hs2 Hb2).
  unfold zip_result. intros E. injection E as E.
  now apply encode_inj.
Qed.

(** X12.  The [data] of the returned ZIP object has four characters for
    every three bytes of the body, the last group counted in full. *)
Theorem zip_data_length (client : HttpClient) (n : nat)
    (propsValue : PropsValue) (response : Response.t) :
  client n (request mime_lookup propsValue) = Fulfilled response ->
  responseFormatZip propsValue = Some true ->
  Response.status response < 300 ->
  is_binary (Response.body response) ->
  exists text,
    outcome (exec client n (run mime_lookup JSON_stringify propsValue))
    = Fulfilled
        (VObject
           [ ("filename",
               VString (filename (file propsValue) ++ "_mineru_result.zip"));
             ("data", VString text);
             ("extension", VString "zip") ])
    /\ String.length text
       = (4 * ((List.length (Buffer_from (Response.body response)) + 2)
               / 3))%nat.
Proof.
  intros Hc Hz Hs Hb.
  exists (Base64.encode (Buffer_from (Response.body response))).
  split; [now apply outcome_zip | apply encode_length].
Qed.

End Base64Properties.

(** ** Concrete runs *)

(** The run of section 8 of the specification: a PDF sent with the declared
    defaults and the [pipeline] backend, answered with a JSON document. *)
Example default_run :
  exec (always ok_json) 0 (run sample_lookup JSON.stringify sample_props)
  = new_Execution
      [ Request.make "http://h/file_parse" POST
          [("Content-Type", "multipart/form-data")]
          [ ("files",
              FormFile
                (new_Blob ["%"%byte; "P"%byte; "D"%byte; "F"%byte]
                   "application/pdf")
                "a.pdf");
            ("backend", FormString "pipeline");
            ("parse_method", FormString "auto");
            ("end_page_id", FormString "99999");
            ("formula_enable", FormString "true");
            ("table_enable", FormString "true");
            ("return_md", FormString "true");
            ("return_middle_json", FormString "false");
            ("return_model_output", FormString "false");
            ("return_content_list", FormString "false");
            ("return_images", FormString "false");
            ("response_format_zip", FormString "false") ] ]
      (Fulfilled (VObject [("markdown", VString "# Title")])).
Proof. reflexivity. Qed.

(** A client that cannot connect: one request is sent, and its failure is
    the failure of the invocation. *)
Example unreachable_run :
  let execution := exec unreachable 0
                     (run sample_lookup JSON.stringify sample_zip_props) in
  List.length (calls execution) = 1%nat
  /\ outcome execution = Rejected (new_Error "connect ECONNREFUSED").
Proof. split; reflexivity. Qed.

(** [Buffer.from('Man').toString('base64')] and its padded forms. *)
Example base64_Man :
  Base64.encode ["M"%byte; "a"%byte; "n"%byte] = "TWFu"
  /\ Base64.encode ["M"%byte; "a"%byte] = "TWE="
  /\ Base64.encode ["M"%byte] = "TQ==".
Proof. repeat split. Qed.

Lemma page_fields_witness :
  Form.getAll (buildForm sample_lookup sample_props) "start_page_id" = []
  /\ Form.has (buildForm sample_lookup sample_props) "start_page_id" = false
  /\ Form.getAll (buildForm sample_lookup sample_props) "end_page_id"
     = [FormString "99999"]
  /\ Form.getAll (buildForm sample_lookup sample_zip_props) "start_page_id"
     = [FormString "2"]
  /\ Form.has (buildForm sample_lookup sample_zip_props) "end_page_id"
     = true.
Proof.
  destruct (page_fields sample_lookup sample_props)
    as (Hs0 & _ & _ & _ & _ & He & Hd).
  destruct (page_fields sample_lookup sample_zip_props)
    as (_ & _ & _ & Hp & Hs & _).
  split; [| split; [| split; [| split]]].
  - apply Hs0. right. reflexivity.
  - apply Hd. reflexivity.
  - apply (He 99999); [reflexivity | lia | reflexivity].
  - apply (Hs 2); [reflexivity | lia | reflexivity].
  - apply (Hp 7); [reflexivity | lia].
Defined.

Lemma file_part_mime_type_witness :
  mimeType sample_lookup sample_file = "application/pdf"
  /\ mimeType sample_lookup (new_ApFile "notes" [] None)
     = "application/octet-stream"
  /\ mimeType sample_lookup (new_ApFile "a.xyz" [] (Some "xyz"))
     = "application/octet-stream".
Proof.
  destruct (file_part_mime_type sample_lookup sample_props)
    as (_ & Hknown & _ & _).
  destruct (file_part_mime_type sample_lookup
              {| apiServerUrl := "http://h";
                 file := new_ApFile "notes" [] None;
                 langList := None; backend := None;
                 backendServerUrl := None; parseMethod := None;
                 formulaEnable := None; tableEnable := None;
                 returnMD := None; returnMiddleJson := None;
                 returnModelOutput := None; returnContentList := None;
                 returnImages := None; responseFormatZip := None;
                 startPageId := None; endPageId := None |})
    as (_ & _ & Habsent & _).
  destruct (file_part_mime_type sample_lookup
              {| apiServerUrl := "http://h";
                 file := new_ApFile "a.xyz" [] (Some "xyz");
                 langList := None; backend := None;
                 backendServerUrl := None; parseMethod := None;
                 formulaEnable := None; tableEnable := None;
                 returnMD := None; returnMiddleJson := None;
                 returnModelOutput := None; returnContentList := None;
                 returnImages := None; responseFormatZip := None;
                 startPageId := None; endPageId := None |})
    as (_ & _ & _ & Hunknown).
  split; [| split].
  - apply (Hknown "pdf" "application/pdf");
      [reflexivity | discriminate | reflexivity | discriminate].
  - apply Habsent. left. reflexivity.
  - apply (Hunknown "xyz"); reflexivity.
Defined.

Lemma optional_and_flag_fields_witness :
  Form.getAll (buildForm sample_lookup sample_props) "lang_list" = []
  /\ Form.getAll (buildForm sample_lookup sample_props) "server_url" = []
  /\ Form.getAll (buildForm sample_lookup sample_props) "formula_enable"
     = [FormString "true"]
  /\ Form.getAll (buildForm sample_lookup sample_zip_props) "table_enable"
     = [FormString "false"].
Proof.
  destruct (optional_and_flag_fields sample_lookup sample_props)
    as (Hl & _ & _ & Hu & Hf & _).
  destruct (optional_and_flag_fields sample_lookup sample_zip_props)
    as (_ & _ & _ & _ & _ & Ht & _).
  split; [| split; [| split]].
  - apply Hl. right. reflexivity.
  - apply Hu. left. reflexivity.
  - exact Hf.
  - exact Ht.
Defined.

Lemma status_error_witness :
  (exists e,
     outcome (exec (always bad_gateway) 0
                (run sample_lookup JSON.stringify sample_zip_props))
     = Rejected e
     /\ message e = "MinerU API request failed with status 502: [1,null]")
  /\ (forall e,
        outcome (exec (always ok_text) 0
                   (run sample_lookup JSON.stringify sample_zip_props))
        = Rejected e ->
        is_status_error e = false).
Proof.
  split.
  - destruct (status_error sample_lookup JSON.stringify (always bad_gateway)
                0%nat sample_zip_props eq_refl) as [H _].
    destruct H as (e & He & Hm & _); [cbn; lia |].
    exists e. split; [exact He | exact Hm].
  - destruct (status_error sample_lookup JSON.stringify (always ok_text)
                0%nat sample_zip_props eq_refl) as [_ H].
    apply H. cbn. lia.
Defined.

Lemma zip_returned_witness :
  outcome (exec (always ok_zip) 0
             (run sample_lookup JSON.stringify sample_zip_props))
  = Fulfilled
      (VObject [ ("filename", VString "a.pdf_mineru_result.zip");
                 ("data", VString "UEsDBA==");
                 ("extension", VString "zip") ]).
Proof.
  apply (zip_returned sample_lookup JSON.stringify (always ok_zip) 0%nat
           sample_zip_props (response := ok_zip)
           (bytes := [x50; x4b; x03; x04]));
    [reflexivity | reflexivity | cbn; lia | left; reflexivity].
Defined.

Lemma format_mismatch_witness :
  outcome (exec (always ok_text) 0
             (run sample_lookup JSON.stringify sample_zip_props))
  = Rejected
      (new_Error "Expected ZIP file response but received non-binary data.").
Proof.
  apply (format_mismatch sample_lookup JSON.stringify (always ok_text) 0%nat
           sample_zip_props (response := ok_text));
    [reflexivity | reflexivity | cbn; lia |].
  intros [bytes [H | H]]; discriminate H.
Defined.

Lemma body_returned_witness :
  outcome (exec (always ok_json) 0
             (run sample_lookup JSON.stringify sample_props))
  = Fulfilled (VObject [("markdown", VString "# Title")])
  /\ outcome (exec (always ok_zip) 0
                (run sample_lookup JSON.stringify sample_props))
     = Fulfilled (VBuffer [x50; x4b; x03; x04]).
Proof.
  split.
  - apply (body_returned sample_lookup JSON.stringify (always ok_json) 0%nat
             sample_props (response := ok_json));
      [reflexivity | discriminate | cbn; lia].
  - apply (body_returned sample_lookup JSON.stringify (always ok_zip) 0%nat
             sample_props (response := ok_zip));
      [reflexivity | discriminate | cbn; lia].
Defined.

Lemma status_before_format_witness :
  (exists e,
     outcome (exec (always bad_gateway) 0
                (run sample_lookup JSON.stringify sample_zip_props))
     = Rejected e
     /\ is_status_error e = true /\ is_format_error e = false)
  /\ Response.status ok_text < 300.
Proof.
  split.
  - destruct (status_before_format sample_lookup JSON.stringify
                (always bad_gateway) 0%nat sample_zip_props eq_refl)
      as [H _].
    apply H. cbn. lia.
  - destruct (status_before_format sample_lookup JSON.stringify
                (always ok_text) 0%nat sample_zip_props eq_refl)
      as [_ H].
    apply (H (new_Error
                "Expected ZIP file response but received non-binary data."));
      reflexivity.
Defined.

Lemma form_field_names_witness :
  map fst (buildForm sample_lookup sample_zip_props)
  = [ "files"; "lang_list"; "backend"; "parse_method"; "start_page_id";
      "end_page_id"; "formula_enable"; "table_enable"; "return_md";
      "return_middle_json"; "return_model_output"; "return_content_list";
      "return_images"; "response_format_zip" ]
  /\ Form.has (buildForm sample_lookup sample_zip_props) "callback_url"
     = false.
Proof.
  destruct (form_field_names sample_lookup sample_zip_props) as [Hn Ho].
  split.
  - exact Hn.
  - apply (Ho "callback_url"). cbn.
    intros H. repeat (destruct H as [H | H]; [discriminate H |]). exact H.
Defined.

Lemma text_fields_verbatim_witness :
  Form.getAll (buildForm sample_lookup sample_zip_props) "lang_list"
  = [FormString "en"]
  /\ Form.getAll (buildForm sample_lookup sample_zip_props) "backend"
     = [FormString "pipeline"].
Proof.
  destruct (text_fields_verbatim sample_lookup sample_zip_props (s := "en"))
    as (Hlang & _); [discriminate |].
  destruct (text_fields_verbatim sample_lookup sample_zip_props
              (s := "pipeline")) as (_ & Hbackend & _); [discriminate |].
  split; [apply Hlang | apply Hbackend]; reflexivity.
Defined.

Lemma dropdown_choice_sent_witness :
  Form.getAll (buildForm sample_lookup sample_props) "backend"
  = [FormString "pipeline"]
  /\ Form.getAll (buildForm sample_lookup sample_props) "parse_method"
     = [FormString "auto"].
Proof.
  destruct (dropdown_choice_sent sample_lookup sample_props
              (plain_option "pipeline")) as [Hbackend _].
  destruct (dropdown_choice_sent sample_lookup sample_props
              (plain_option "auto")) as [_ Hmethod].
  split; [apply Hbackend | apply Hmethod];
    (left; reflexivity) || reflexivity.
Defined.

Lemma page_fields_tell_pages_witness :
  Form.getAll
    (buildForm sample_lookup (with_pages sample_props (Some 2) (Some 7)))
    "start_page_id"
  <> Form.getAll
       (buildForm sample_lookup (with_pages sample_props (Some 3) (Some 7)))
       "start_page_id".
Proof.
  intros E.
  assert (H : 2 = 3); [| discriminate H].
  destruct (page_fields_tell_pages sample_lookup
              (with_pages sample_props (Some 2) (Some 7))
              (with_pages sample_props (Some 3) (Some 7))
              (n1 := 2) (n2 := 3)) as [Hstart _];
    [lia | lia | reflexivity | reflexivity |].
  apply Hstart; [reflexivity | reflexivity | exact E].
Defined.

Lemma transport_failure_propagates_witness :
  exec unreachable 0 (run sample_lookup JSON.stringify sample_props)
  = new_Execution [request sample_lookup sample_props]
      (Rejected (new_Error "connect ECONNREFUSED")).
Proof.
  apply (transport_failure_propagates sample_lookup JSON.stringify
           unreachable 0 sample_props
           (e := new_Error "connect ECONNREFUSED")).
  reflexivity.
Defined.

Lemma returned_value_witness :
  exists response,
    always ok_json 0%nat (request sample_lookup sample_props)
    = Fulfilled response
    /\ Response.status response < 300.
Proof.
  destruct (returned_value sample_lookup JSON.stringify (always ok_json)
              0%nat sample_props
              (v := VObject [("markdown", VString "# Title")]) eq_refl)
    as (response & Hc & Hs & _).
  exists response. split; assumption.
Defined.

Lemma thrown_error_witness :
  always bad_gateway 0%nat (request sample_lookup sample_zip_props)
  = Rejected
      (new_Error "MinerU API request failed with status 502: [1,null]")
  \/ exists response,
       always bad_gateway 0%nat (request sample_lookup sample_zip_props)
       = Fulfilled response.
Proof.
  destruct (thrown_error sample_lookup JSON.stringify (always bad_gateway)
              0%nat sample_zip_props
              (e := new_Error
                      "MinerU API request failed with status 502: [1,null]")
              eq_refl)
    as [H | (response & Hc & _)].
  - left. exact H.
  - right. exists response. exact Hc.
Defined.

Lemma zip_data_tells_bytes_witness :
  outcome (exec (always ok_zip) 0
             (run sample_lookup JSON.stringify sample_zip_props))
  <> outcome (exec (always ok_empty_zip) 0
                (run sample_lookup JSON.stringify sample_zip_props)).
Proof.
  intros E.
  assert (H : [x50; x4b; x03; x04] = [x50; x4b; x05; x06]);
    [| discriminate H].
  apply (zip_data_tells_bytes sample_lookup JSON.stringify
           (always ok_zip) (always ok_empty_zip) 0 0 sample_zip_props
           (response1 := ok_zip) (response2 := ok_empty_zip));
    [ reflexivity | reflexivity | reflexivity | cbn; lia | cbn; lia
    | eexists; left; reflexivity | eexists; right; reflexivity | exact E ].
Defined.

Lemma zip_data_length_witness :
  exists text,
    outcome (exec (always ok_zip) 0
               (run sample_lookup JSON.stringify sample_zip_props))
    = Fulfilled
        (VObject [ ("filename", VString "a.pdf_mineru_result.zip");
                   ("data", VString text);
                   ("extension", VString "zip") ])
    /\ String.length text = 8%nat.
Proof.
  apply (zip_data_length sample_lookup JSON.stringify (always ok_zip) 0%nat
           sample_zip_props (response := ok_zip));
    [ reflexivity | reflexivity | cbn; lia | eexists; left; reflexivity ].
Defined.
